(** * Harp register adapters of the Pico device (picoregisters.py)

    A shallow embedding of the register classes of [picoregisters.py].
    Every register object owns two attributes ([typ], [value]) and holds a
    handle on one peripheral object.  A method call is a computation over
    the register's attributes, the peripheral behind the handle and the
    trace of the effects performed so far; it either returns or raises, and
    whatever was mutated before an exception stays mutated. *)

From Stdlib Require Import String ZArith List Bool Lia.
Import ListNotations.
Local Open Scope Z_scope.

(** ** Python values and exceptions *)

(** The values the [enabled] attribute of a PWM object may hold.  Python's
    [is] compares identities: only the boolean [True] is [True]. *)
Inductive pyval : Type :=
| PyNone
| PyBool (b : bool)
| PyInt (n : Z).

Definition is_True (v : pyval) : bool :=
  match v with PyBool true => true | _ => false end.

Definition is_False (v : pyval) : bool :=
  match v with PyBool false => true | _ => false end.

(** Truth value of an object in a condition ([bool(v)]). *)
Definition truthy (v : pyval) : bool :=
  match v with
  | PyNone => false
  | PyBool b => b
  | PyInt n => negb (n =? 0)
  end.

Inductive exn : Type :=
| TypeMismatch
| LengthMismatch
| ValueError (msg : string)
| IndexError.

Inductive res (A : Type) : Type :=
| Ok (a : A)
| Raise (e : exn).
Arguments Ok {A} a.
Arguments Raise {A} e.

(** ** microharp.types *)

(** Modelled from the spec: [microharp.types.HarpTypes] is imported, not
    defined, by picoregisters.py; the spec lists the register type tags. *)
Inductive HarpTypes : Type :=
| U8 | U16 | U32 | U64 | S8 | S16 | S32 | S64 | Float | Double.

Definition HarpTypes_eqb (a b : HarpTypes) : bool :=
  match a, b with
  | U8, U8 | U16, U16 | U32, U32 | U64, U64
  | S8, S8 | S16, S16 | S32, S32 | S64, S64
  | Float, Float | Double, Double => true
  | _, _ => false
  end.

(** ** Peripheral capability interfaces (picofunction) *)

(** Modelled from the spec: the digital output array driver; its three
    operations take a bitmask, and [clear_state()] without a mask clears
    all pins. *)
Class DigitalOutputArray (D : Type) : Type := {
  set_state : Z -> D -> D;
  clear_state : option Z -> D -> D;
  toggle_state : Z -> D -> D
}.

(** Modelled from the spec: the digital input array driver; [state] is a
    pure query returning the bit pattern of the pins. *)
Class DigitalInputArray (I : Type) : Type := {
  state : I -> Z
}.

(** Modelled from the spec: the ADC object; [read_u16()] produces a sample
    and may advance the converter. *)
Class Adc (A : Type) : Type := {
  read_u16 : A -> Z * A
}.

(** Modelled from the spec: the object behind [picoObject]; only the
    [adc_event] gate is used, through [enable()] and [disable()]. *)
Class PicoObject (G : Type) : Type := {
  adc_event_enable : G -> G;
  adc_event_disable : G -> G
}.

(** The attributes of a [picofunction.HarpPwm] object that the registers
    read or assign.  The attribute is spelled [dutycyle] in the source. *)
Record HarpPwm : Type := mkHarpPwm {
  frequency : Z;
  dutycyle : Z;
  enabled : pyval
}.

(** Modelled from the spec: the class constants and the two methods of
    [picofunction.HarpPwm], which picoregisters.py imports. *)
Class HarpPwmClass : Type := {
  MinFrequency : Z;
  MinDutyCycle : Z;
  start : HarpPwm -> HarpPwm;
  stop : HarpPwm -> HarpPwm
}.

(** ** Effects *)

(** What a method call does, in program order: the store into the cached
    [value] done by the base [write], and every call or attribute
    assignment on a peripheral. *)
Inductive event : Type :=
| EvStore (payload : list Z)
| EvSetState (mask : Z)
| EvClearState (mask : option Z)
| EvToggleState (mask : Z)
| EvReadU16
| EvEnable
| EvDisable
| EvSetFrequency (v : Z)
| EvSetDutycyle (v : Z)
| EvStart
| EvStop.


Definition event_is_start (e : event) : bool :=
  match e with EvStart => true | _ => false end.

Definition event_is_stop (e : event) : bool :=
  match e with EvStop => true | _ => false end.

(** Number of events of [l] satisfying [f]. *)
Definition count (f : event -> bool) (l : list event) : nat :=
  List.length (filter f l).

(** The attributes every register object owns. *)
Record HarpRegister : Type := mkHarpRegister {
  typ : HarpTypes;
  value : list Z
}.

(** A register object, the peripheral its handle points to, and the trace. *)
Record World (P : Type) : Type := mkWorld {
  self : HarpRegister;
  periph : P;
  trace : list event
}.
Arguments mkWorld {P} self periph trace.
Arguments self {P} w.
Arguments periph {P} w.
Arguments trace {P} w.

(** State and exception monad of the method bodies. *)
Definition M (P A : Type) : Type := World P -> res A * World P.

Definition ret {P A : Type} (a : A) : M P A := fun w => (Ok a, w).

Definition raise {P A : Type} (e : exn) : M P A := fun w => (Raise e, w).

Definition bind {P A B : Type} (c : M P A) (k : A -> M P B) : M P B :=
  fun w =>
    match c w with
    | (Ok a, w1) => k a w1
    | (Raise e, w1) => (Raise e, w1)
    end.

Declare Scope py_scope.
Delimit Scope py_scope with py.
Notation "x <- c ;; k" := (bind c (fun x => k))
  (at level 100, c at next level, right associativity) : py_scope.
Notation "c ;; k" := (bind c (fun _ => k))
  (at level 100, right associativity) : py_scope.
Local Open Scope py_scope.

Definition get_self {P : Type} : M P HarpRegister := fun w => (Ok (self w), w).

Definition get_periph {P : Type} : M P P := fun w => (Ok (periph w), w).

(** [self.value = v] *)
Definition store_value {P : Type} (v : list Z) : M P unit :=
  fun w =>
    (Ok tt, mkWorld (mkHarpRegister (typ (self w)) v) (periph w)
                    (trace w ++ [EvStore v])).

(** An operation [f] on the peripheral, recorded as [e]. *)
Definition call {P : Type} (e : event) (f : P -> P) : M P unit :=
  fun w => (Ok tt, mkWorld (self w) (f (periph w)) (trace w ++ [e])).

(** [t[0]] on a tuple. *)
Definition item0 {P : Type} (t : list Z) : M P Z :=
  match t with
  | x :: _ => ret x
  | [] => raise IndexError
  end.

(** ** microharp.register *)

Section BaseRegister.
Context {P : Type}.

(** Modelled from the spec: [ReadWriteReg.__init__(typ, value)] of
    microharp, which picoregisters.py imports; the cached value is a
    sequence of one element holding the default. *)
Definition ReadWriteReg_init (t : HarpTypes) (default : Z) : HarpRegister :=
  mkHarpRegister t [default].

(** Modelled from the spec: [HarpRegister.read] of microharp fails with
    TypeMismatch when the requested type is not the register's, and
    otherwise returns the cached value without any effect. *)
Definition HarpRegister_read (t : HarpTypes) : M P (list Z) :=
  r <- get_self ;;
  if HarpTypes_eqb t (typ r) then ret (value r) else raise TypeMismatch.

(** Modelled from the spec: [ReadWriteReg.write] of microharp fails with
    TypeMismatch when the type differs, with LengthMismatch when the
    payload does not have [len(self)] elements, and otherwise stores the
    payload into the cached value with no further effect.  [len_self] is
    the result of the register's [__len__]. *)
Definition ReadWriteReg_write (len_self : nat) (t : HarpTypes)
           (payload : list Z) : M P unit :=
  r <- get_self ;;
  if negb (HarpTypes_eqb t (typ r)) then raise TypeMismatch
  else if negb (Nat.eqb (List.length payload) len_self) then raise LengthMismatch
  else store_value payload.
End BaseRegister.

(** ** picoregisters.py *)

Section DigitalInput.
Context {I : Type} `{DigitalInputArray I}.

Definition HarpDigitalInputArrayRegister_len : nat := 1.

(** [__init__]: the base constructor caches 0 and the handle is kept. *)
Definition HarpDigitalInputArrayRegister_init : M I unit :=
  fun w => (Ok tt, mkWorld (ReadWriteReg_init U8 0) (periph w) (trace w)).

(** [super().read(typ)], whose result is dropped, then the live pin
    state as a one-element tuple. *)
Definition HarpDigitalInputArrayRegister_read (t : HarpTypes)
  : M I (list Z) :=
  HarpRegister_read t ;;
  p <- get_periph ;;
  ret [state p].
End DigitalInput.

Section DigitalOutput.
Context {D : Type} `{DigitalOutputArray D}.

Definition HarpDigitalOutputArrayRegister_len : nat := 1.

(** [__init__]: the base constructor caches 0, the handle is kept, and
    [clear_state()] without a mask puts every pin off. *)
Definition HarpDigitalOutputArrayRegister_init : M D unit :=
  fun w =>
    call (EvClearState None) (clear_state None)
         (mkWorld (ReadWriteReg_init U8 0) (periph w) (trace w)).

Definition Set_HarpDigitalOutputArrayRegister_write
           (t : HarpTypes) (mask : list Z) : M D unit :=
  ReadWriteReg_write HarpDigitalOutputArrayRegister_len t mask ;;
  m <- item0 mask ;;
  call (EvSetState m) (set_state m).

Definition Clear_HarpDigitalOutputArrayRegister_write
           (t : HarpTypes) (mask : list Z) : M D unit :=
  ReadWriteReg_write HarpDigitalOutputArrayRegister_len t mask ;;
  m <- item0 mask ;;
  call (EvClearState (Some m)) (clear_state (Some m)).

Definition Toggle_HarpDigitalOutputArrayRegister_write
           (t : HarpTypes) (mask : list Z) : M D unit :=
  ReadWriteReg_write HarpDigitalOutputArrayRegister_len t mask ;;
  m <- item0 mask ;;
  call (EvToggleState m) (toggle_state m).
End DigitalOutput.

Section AdcSample.
Context {A : Type} `{Adc A}.

Definition AdcRegister_len : nat := 1.

(** [self.adc.read_u16()] *)
Definition adc_read_u16 : M A Z :=
  fun w =>
    let (sample, adc') := read_u16 (periph w) in
    (Ok sample, mkWorld (self w) adc' (trace w ++ [EvReadU16])).

Definition AdcRegister_read (t : HarpTypes) : M A (list Z) :=
  HarpRegister_read t ;;
  sample <- adc_read_u16 ;;
  ret [sample].
End AdcSample.

Section AnalogStream.
Context {G : Type} `{PicoObject G}.

(** Modelled from the spec: the class does not define [__len__]; the
    inherited one gives the single element every register here has. *)
Definition AnalogStreamStateRegister_len : nat := 1.

(** [__init__]: the base constructor caches 0 and the handle is kept. *)
Definition AnalogStreamStateRegister_init : M G unit :=
  fun w => (Ok tt, mkWorld (ReadWriteReg_init U8 0) (periph w) (trace w)).

Definition AnalogStreamStateRegister_write
           (t : HarpTypes) (value : list Z) : M G unit :=
  ReadWriteReg_write AnalogStreamStateRegister_len t value ;;
  v <- item0 value ;;
  if 0 <? v then call EvEnable adc_event_enable
  else call EvDisable adc_event_disable.
End AnalogStream.

Section Pwm.
Context `{HarpPwmClass}.

(** [self.harpPWM.frequency = v] *)
Definition set_frequency (v : Z) (p : HarpPwm) : HarpPwm :=
  mkHarpPwm v (dutycyle p) (enabled p).

(** [self.harpPWM.dutycyle = v] *)
Definition set_dutycyle (v : Z) (p : HarpPwm) : HarpPwm :=
  mkHarpPwm (frequency p) v (enabled p).

Definition PwmFreqRegister_len : nat := 1.

(** [__init__]: the base constructor caches [HarpPwm.MinFrequency] and
    the handle is kept; the peripheral is not told. *)
Definition PwmFreqRegister_init : M HarpPwm unit :=
  fun w =>
    (Ok tt, mkWorld (ReadWriteReg_init U16 MinFrequency)
                    (periph w) (trace w)).

Definition PwmFreqRegister_validate (value : list Z) : M HarpPwm (list Z) :=
  v <- item0 value ;;
  if v <? MinFrequency then raise (ValueError "Invalid input value.")
  else ret value.

Definition PwmFreqRegister_write
           (t : HarpTypes) (value : list Z) : M HarpPwm unit :=
  checked <- PwmFreqRegister_validate value ;;
  ReadWriteReg_write PwmFreqRegister_len t checked ;;
  v <- item0 value ;;
  call (EvSetFrequency v) (set_frequency v).

Definition PwmDutycycleRegister_len : nat := 1.

Definition PwmDutycycleRegister_validate (value : list Z)
  : M HarpPwm (list Z) :=
  v <- item0 value ;;
  if (100 <? v) || (v <? MinDutyCycle)
  then raise (ValueError "Invalid input value.")
  else ret value.

Definition PwmDutycycleRegister_write
           (t : HarpTypes) (value : list Z) : M HarpPwm unit :=
  checked <- PwmDutycycleRegister_validate value ;;
  ReadWriteReg_write PwmDutycycleRegister_len t checked ;;
  v <- item0 value ;;
  call (EvSetDutycyle v) (set_dutycyle v).

(** [__init__]: the base constructor installs [HarpPwm.MinDutyCycle],
    the handle is kept, and [self.write(self.typ, (0,))] runs on the
    object built so far. *)
Definition PwmDutycycleRegister_init : M HarpPwm unit :=
  fun w =>
    let w0 := mkWorld (ReadWriteReg_init U8 MinDutyCycle)
                      (periph w) (trace w) in
    PwmDutycycleRegister_write (typ (self w0)) [0] w0.

(** [PwmDutycycleRegister(harpPWM)]: the new register if [__init__]
    returns, the exception otherwise; the peripheral and the trace are
    what [__init__] left. *)
Definition PwmDutycycleRegister_new (harpPWM : HarpPwm) (tr : list event)
  : res HarpRegister * HarpPwm * list event :=
  let blank := mkWorld (mkHarpRegister U8 []) harpPWM tr in
  match PwmDutycycleRegister_init blank with
  | (Ok _, w) => (Ok (self w), periph w, trace w)
  | (Raise e, w) => (Raise e, periph w, trace w)
  end.

Definition PwmStartRegister_len : nat := 1.

(** [__init__]: the base constructor caches 0 and the handle is kept. *)
Definition PwmStartRegister_init : M HarpPwm unit :=
  fun w => (Ok tt, mkWorld (ReadWriteReg_init U8 0) (periph w) (trace w)).

Definition PwmStartRegister_write
           (t : HarpTypes) (value : list Z) : M HarpPwm unit :=
  p <- get_periph ;;
  if is_False (enabled p) then
    ReadWriteReg_write PwmStartRegister_len t value ;;
    call EvStart start
  else
    ReadWriteReg_write PwmStartRegister_len t value ;;
    call EvStart start.

(** The write of the start register as the spec words it: a single
    unconditional store, then start. *)
Definition PwmStart_store_then_start
           (t : HarpTypes) (value : list Z) : M HarpPwm unit :=
  ReadWriteReg_write PwmStartRegister_len t value ;;
  call EvStart start.

Definition PwmStopRegister_len : nat := 1.

(** [__init__]: the base constructor caches 0 and the handle is kept. *)
Definition PwmStopRegister_init : M HarpPwm unit :=
  fun w => (Ok tt, mkWorld (ReadWriteReg_init U8 0) (periph w) (trace w)).

Definition PwmStopRegister_write
           (t : HarpTypes) (value : list Z) : M HarpPwm unit :=
  p <- get_periph ;;
  if is_True (enabled p) then
    ReadWriteReg_write PwmStopRegister_len t value ;;
    call EvStop stop
  else
    ReadWriteReg_write PwmStopRegister_len t value.
End Pwm.

(** ** Dispatch over the classes that define [write] *)

Inductive variant : Type :=
| Set_HarpDigitalOutputArrayRegister
| Clear_HarpDigitalOutputArrayRegister
| Toggle_HarpDigitalOutputArrayRegister
| AnalogStreamStateRegister
| PwmFreqRegister
| PwmDutycycleRegister
| PwmStartRegister
| PwmStopRegister.

Section Dispatch.
Context {D G : Type} `{DigitalOutputArray D} `{PicoObject G} `{HarpPwmClass}.

(** The peripheral a register of class [k] holds a handle on. *)
Definition periph_of (k : variant) : Type :=
  match k with
  | Set_HarpDigitalOutputArrayRegister
  | Clear_HarpDigitalOutputArrayRegister
  | Toggle_HarpDigitalOutputArrayRegister => D
  | AnalogStreamStateRegister => G
  | PwmFreqRegister | PwmDutycycleRegister
  | PwmStartRegister | PwmStopRegister => HarpPwm
  end.

(** [reg.write(typ, payload)] on a register of class [k]. *)
Definition write (k : variant)
  : HarpTypes -> list Z -> M (periph_of k) unit :=
  match k with
  | Set_HarpDigitalOutputArrayRegister =>
      Set_HarpDigitalOutputArrayRegister_write
  | Clear_HarpDigitalOutputArrayRegister =>
      Clear_HarpDigitalOutputArrayRegister_write
  | Toggle_HarpDigitalOutputArrayRegister =>
      Toggle_HarpDigitalOutputArrayRegister_write
  | AnalogStreamStateRegister => AnalogStreamStateRegister_write
  | PwmFreqRegister => PwmFreqRegister_write
  | PwmDutycycleRegister => PwmDutycycleRegister_write
  | PwmStartRegister => PwmStartRegister_write
  | PwmStopRegister => PwmStopRegister_write
  end.

(** [k(handle)]: the constructor of class [k], run on the handle and the
    trace of [w]; the three digital output classes only call the
    constructor of their parent. *)
Definition init (k : variant) : M (periph_of k) unit :=
  match k with
  | Set_HarpDigitalOutputArrayRegister
  | Clear_HarpDigitalOutputArrayRegister
  | Toggle_HarpDigitalOutputArrayRegister =>
      HarpDigitalOutputArrayRegister_init
  | AnalogStreamStateRegister => AnalogStreamStateRegister_init
  | PwmFreqRegister => PwmFreqRegister_init
  | PwmDutycycleRegister => PwmDutycycleRegister_init
  | PwmStartRegister => PwmStartRegister_init
  | PwmStopRegister => PwmStopRegister_init
  end.

(** [reg.read(typ)]: none of these classes overrides the base read. *)
Definition read (k : variant) : HarpTypes -> M (periph_of k) (list Z) :=
  HarpRegister_read.
End Dispatch.

(** ** Callers *)

(** A series of write requests served one after the other on the same
    register; a request that raises ends there and the next one is
    served on whatever it left. *)
Fixpoint serve {P : Type} (wr : HarpTypes -> list Z -> M P unit)
         (reqs : list (HarpTypes * list Z)) (w : World P) : World P :=
  match reqs with
  | [] => w
  | (t, payload) :: rest => serve wr rest (snd (wr t payload w))
  end.

(** Another register object holding a handle on the same peripheral. *)
Definition rebind {P : Type} (r : HarpRegister) (w : World P) : World P :=
  mkWorld r (periph w) (trace w).

(** ** Invariants of the PWM configuration registers *)

Section PwmInvariants.
Context `{HarpPwmClass}.


(** The duty-cycle register caches one value within range, and it is the
    duty cycle of the peripheral. *)
Definition PwmDutycycle_consistent (w : World HarpPwm) : Prop :=
  exists v : Z,
    value (self w) = [v] /\ dutycyle (periph w) = v /\
    MinDutyCycle <= v <= 100.

(** The PWM was neither started nor stopped since the trace was [tr0]
    and the peripheral [p0]. *)
Definition same_run_state (tr0 : list event) (p0 : HarpPwm)
           (w : World HarpPwm) : Prop :=
  enabled (periph w) = enabled p0 /\
  count event_is_start (trace w) = count event_is_start tr0 /\
  count event_is_stop (trace w) = count event_is_stop tr0.
End PwmInvariants.

(** ** Simulated peripherals *)

(** Modelled from the spec: a digital output array whose state is the bit
    pattern of its pins; set, clear and toggle touch only the bits of the
    mask, and clearing without a mask clears every pin. *)
Definition sim_digital_output : DigitalOutputArray Z :=
  {| set_state := fun mask s => Z.lor s mask;
     clear_state := fun mask s =>
       match mask with
       | Some m => Z.land s (Z.lnot m)
       | None => 0
       end;
     toggle_state := fun mask s => Z.lxor s mask |}.

(** Modelled from the spec: a digital input array that reports the bit
    pattern it holds. *)
Definition sim_digital_input : DigitalInputArray Z :=
  {| state := fun s => s |}.

(** Modelled from the spec: an ADC that replays a list of samples. *)
Definition sim_adc : Adc (list Z) :=
  {| read_u16 := fun samples => (hd 0 samples, tl samples) |}.

(** Modelled from the spec: a stream gate that is either on or off. *)
Definition sim_pico : PicoObject bool :=
  {| adc_event_enable := fun _ => true;
     adc_event_disable := fun _ => false |}.

(** Modelled from the spec: a PWM with the given minima; start forces the
    running state and stop the stopped one. *)
Definition sim_pwm (min_frequency min_dutycycle : Z) : HarpPwmClass :=
  {| MinFrequency := min_frequency;
     MinDutyCycle := min_dutycycle;
     start := fun p => mkHarpPwm (frequency p) (dutycyle p) (PyBool true);
     stop := fun p => mkHarpPwm (frequency p) (dutycyle p) (PyBool false) |}.

(** Sample objects over the simulated peripherals. *)

(** A digital input register whose pins read 0b0101. *)
Definition din_world : World Z :=
  mkWorld (ReadWriteReg_init U8 0) 5 [].

(** A digital output register whose pins are at 0b1010. *)
Definition dout_world : World Z :=
  mkWorld (ReadWriteReg_init U8 0) 10 [].

(** An ADC register whose converter will deliver 7, then 9. *)
Definition adc_world : World (list Z) :=
  mkWorld (mkHarpRegister U16 [0]) [7; 9] [].

(** A stream state register whose gate is off. *)
Definition gate_world : World bool :=
  mkWorld (ReadWriteReg_init U8 0) false [].

(** A PWM register of type [t] caching [default], on a PWM at 10 Hz and
    0 % whose [enabled] attribute holds [e]. *)
Definition pwm_world (t : HarpTypes) (default : Z) (e : pyval)
  : World HarpPwm :=
  mkWorld (ReadWriteReg_init t default) (mkHarpPwm 10 0 e) [].

(** ** Properties *)

Lemma HarpTypes_eqb_refl (t : HarpTypes) : HarpTypes_eqb t t = true.
Proof. destruct t; reflexivity. Qed.

Lemma HarpTypes_eqb_eq (a b : HarpTypes) : HarpTypes_eqb a b = true -> a = b.
Proof. destruct a, b; simpl; intro E; congruence. Qed.

Ltac unfold_py :=
  cbv beta iota delta
      [bind ret raise get_self get_periph store_value call item0
       HarpRegister_read ReadWriteReg_write] in *.

(** The base write, when it returns, has stored the payload, has appended
    exactly the store to the trace and has left the peripheral alone. *)
Lemma ReadWriteReg_write_ok {P : Type} (n : nat) (t : HarpTypes)
      (payload : list Z) (w w' : World P) :
  ReadWriteReg_write n t payload w = (Ok tt, w') ->
  t = typ (self w) /\ List.length payload = n /\
  w' = mkWorld (mkHarpRegister (typ (self w)) payload) (periph w)
               (trace w ++ [EvStore payload]).
Proof.
  unfold_py.
  destruct (HarpTypes_eqb t (typ (self w))) eqn:Et; simpl; [|discriminate].
  destruct (Nat.eqb (List.length payload) n) eqn:En; simpl; [|discriminate].
  intro E; inversion E; subst; clear E.
  split; [now apply HarpTypes_eqb_eq|].
  split; [now apply Nat.eqb_eq|reflexivity].
Qed.

(** Conversely a well-typed payload of the right length is stored. *)
Lemma ReadWriteReg_write_run {P : Type} (n : nat) (payload : list Z)
      (w : World P) :
  List.length payload = n ->
  ReadWriteReg_write n (typ (self w)) payload w =
  (Ok tt, mkWorld (mkHarpRegister (typ (self w)) payload) (periph w)
                  (trace w ++ [EvStore payload])).
Proof.
  intro L. unfold_py.
  rewrite HarpTypes_eqb_refl. simpl.
  apply Nat.eqb_eq in L. rewrite L. reflexivity.
Qed.

Ltac unfold_classes :=
  cbv beta iota delta
      [write read periph_of
       Set_HarpDigitalOutputArrayRegister_write
       Clear_HarpDigitalOutputArrayRegister_write
       Toggle_HarpDigitalOutputArrayRegister_write
       AnalogStreamStateRegister_write
       PwmFreqRegister_write PwmFreqRegister_validate
       PwmDutycycleRegister_write PwmDutycycleRegister_validate
       PwmStartRegister_write PwmStart_store_then_start
       PwmStopRegister_write
       HarpDigitalOutputArrayRegister_len AnalogStreamStateRegister_len
       PwmFreqRegister_len PwmDutycycleRegister_len
       PwmStartRegister_len PwmStopRegister_len] in *.

(** Case analysis on the next test a method body performs. *)
Ltac branch :=
  match goal with
  | H : context [if negb (HarpTypes_eqb ?a ?b) then _ else _] |- _ =>
      let E := fresh "Etyp" in destruct (HarpTypes_eqb a b) eqn:E
  | H : context [if ?c then _ else _] |- _ =>
      let E := fresh "Etest" in destruct c eqn:E
  end; simpl in *; try discriminate.

Section WriteOrder.
Context {D G : Type} `{DigitalOutputArray D} `{PicoObject G} `{HarpPwmClass}.

End WriteOrder.


Section PwmProperties.
Context `{HarpPwmClass}.

(** C2: a frequency write below [MinFrequency] raises ValueError and
    leaves the register, the peripheral and the trace as they were; a
    write of exactly [MinFrequency] returns, with the value cached and
    the frequency of the peripheral set to it. *)
Theorem PwmFreqRegister_write_validates
        (v : Z) (t : HarpTypes) (w : World HarpPwm) :
  (v < MinFrequency ->
   PwmFreqRegister_write t [v] w =
   (Raise (ValueError "Invalid input value."), w)) /\
  (v = MinFrequency -> t = typ (self w) ->
   exists w' : World HarpPwm,
     PwmFreqRegister_write t [v] w = (Ok tt, w') /\
     value (self w') = [v] /\
     frequency (periph w') = v /\
     trace w' = trace w ++ [EvStore [v]; EvSetFrequency v]).
Proof.
  split.
  - intro Hlow. unfold_classes; unfold_py.
    apply Z.ltb_lt in Hlow. rewrite Hlow. reflexivity.
  - intros Hmin Ht. subst t. unfold_classes; unfold_py.
    assert (Hge : (v <? MinFrequency) = false) by (apply Z.ltb_ge; lia).
    rewrite Hge, HarpTypes_eqb_refl. simpl.
    eexists. split; [reflexivity|]. simpl.
    rewrite <- app_assoc. auto.
Qed.

(** C3: a duty-cycle write above 100 or below [MinDutyCycle] raises
    ValueError and leaves the register, the peripheral and the trace as
    they were; when [MinDutyCycle <= 0] the writes of 0 and of 100 both
    return, with the value cached and handed to the peripheral. *)
Theorem PwmDutycycleRegister_write_validates
        (v : Z) (t : HarpTypes) (w : World HarpPwm) :
  (100 < v \/ v < MinDutyCycle ->
   PwmDutycycleRegister_write t [v] w =
   (Raise (ValueError "Invalid input value."), w)) /\
  (MinDutyCycle <= 0 -> t = typ (self w) -> v = 0 \/ v = 100 ->
   exists w' : World HarpPwm,
     PwmDutycycleRegister_write t [v] w = (Ok tt, w') /\
     value (self w') = [v] /\
     dutycyle (periph w') = v /\
     trace w' = trace w ++ [EvStore [v]; EvSetDutycyle v]).
Proof.
  split.
  - intro Hout. unfold_classes; unfold_py.
    assert (Hbad : (100 <? v) || (v <? MinDutyCycle) = true).
    { apply orb_true_iff.
      destruct Hout as [Hhi | Hlo]; [left | right]; now apply Z.ltb_lt. }
    rewrite Hbad. reflexivity.
  - intros Hmin Ht Hv. subst t. unfold_classes; unfold_py.
    assert (Hgood : (100 <? v) || (v <? MinDutyCycle) = false).
    { apply orb_false_iff. split; apply Z.ltb_ge; lia. }
    rewrite Hgood, HarpTypes_eqb_refl. simpl.
    eexists. split; [reflexivity|]. simpl.
    rewrite <- app_assoc. auto.
Qed.

(** What the constructor of the duty-cycle register does, by cases on
    the class constant. *)
Lemma PwmDutycycleRegister_new_cases (harpPWM : HarpPwm) (tr : list event) :
  PwmDutycycleRegister_new harpPWM tr =
  if 0 <? MinDutyCycle
  then (Raise (ValueError "Invalid input value."), harpPWM, tr)
  else (Ok (mkHarpRegister U8 [0]), set_dutycyle 0 harpPWM,
        tr ++ [EvStore [0]; EvSetDutycyle 0]).
Proof.
  unfold PwmDutycycleRegister_new, PwmDutycycleRegister_init,
    ReadWriteReg_init.
  unfold_classes; unfold_py. simpl.
  destruct (0 <? MinDutyCycle); simpl; [reflexivity|].
  rewrite <- app_assoc. reflexivity.
Qed.

(** C4: when the constructor of the duty-cycle register returns, the
    register reads back as 0: the constructor is the write of 0 on an
    object that caches [MinDutyCycle], and that write replaced the
    default. *)
Theorem PwmDutycycleRegister_new_reads_zero
        (harpPWM p' : HarpPwm) (tr tr' : list event) (r : HarpRegister) :
  PwmDutycycleRegister_new harpPWM tr = (Ok r, p', tr') ->
  (forall w : World HarpPwm,
      PwmDutycycleRegister_init w =
      PwmDutycycleRegister_write
        U8 [0] (mkWorld (mkHarpRegister U8 [MinDutyCycle])
                        (periph w) (trace w))) /\
  value r = [0] /\
  tr' = tr ++ [EvStore [0]; EvSetDutycyle 0] /\
  HarpRegister_read U8 (mkWorld r p' tr') = (Ok [0], mkWorld r p' tr').
Proof.
  rewrite PwmDutycycleRegister_new_cases.
  destruct (0 <? MinDutyCycle); [discriminate|].
  intro E; inversion E; subst; clear E.
  repeat split; reflexivity.
Qed.

(** C10: the constructor of the duty-cycle register goes through the
    validating write of [(0,)]: with [MinDutyCycle > 0] it raises
    ValueError and yields no register, the peripheral untouched; with
    [MinDutyCycle <= 0] it returns, and whenever it returns the
    [dutycyle] attribute of the peripheral has been set to 0. *)
Theorem PwmDutycycleRegister_new_validates
        (harpPWM : HarpPwm) (tr : list event) :
  (0 < MinDutyCycle ->
   PwmDutycycleRegister_new harpPWM tr =
   (Raise (ValueError "Invalid input value."), harpPWM, tr)) /\
  (MinDutyCycle <= 0 ->
   exists r : HarpRegister,
     PwmDutycycleRegister_new harpPWM tr =
     (Ok r, set_dutycyle 0 harpPWM,
      tr ++ [EvStore [0]; EvSetDutycyle 0])) /\
  (forall (r : HarpRegister) (p' : HarpPwm) (tr' : list event),
      PwmDutycycleRegister_new harpPWM tr = (Ok r, p', tr') ->
      MinDutyCycle <= 0 /\ dutycyle p' = 0 /\
      In (EvSetDutycyle 0) tr').
Proof.
  rewrite PwmDutycycleRegister_new_cases.
  destruct (0 <? MinDutyCycle) eqn:Emin.
  - apply Z.ltb_lt in Emin.
    split; [reflexivity|]. split; [lia|]. discriminate.
  - apply Z.ltb_ge in Emin.
    split; [lia|]. split; [eexists; reflexivity|].
    intros r p' tr' E; inversion E; subst; clear E.
    split; [assumption|]. split; [reflexivity|].
    apply in_or_app. right. simpl. auto.
Qed.
End PwmProperties.

Section PwmStartStop.
Context `{HarpPwmClass}.

(** C5: whatever the [enabled] attribute holds, the write of the start
    register is the unconditional store-then-start; when it returns,
    the payload is cached and [start()] has run exactly once, after the
    store; a well-typed one-element write does return. *)
Theorem PwmStartRegister_write_unconditional
        (t : HarpTypes) (payload : list Z) (w : World HarpPwm) :
  PwmStartRegister_write t payload w =
  PwmStart_store_then_start t payload w /\
  (forall w' : World HarpPwm,
      PwmStartRegister_write t payload w = (Ok tt, w') ->
      value (self w') = payload /\
      periph w' = start (periph w) /\
      trace w' = trace w ++ [EvStore payload; EvStart] /\
      count event_is_start [EvStore payload; EvStart] = 1%nat) /\
  (t = typ (self w) -> List.length payload = 1%nat ->
   exists w' : World HarpPwm,
     PwmStartRegister_write t payload w = (Ok tt, w')).
Proof.
  assert (Eq : PwmStartRegister_write t payload w =
               PwmStart_store_then_start t payload w).
  { unfold PwmStartRegister_write, PwmStart_store_then_start.
    unfold bind at 1. unfold get_periph.
    destruct (is_False (enabled (periph w))); reflexivity. }
  split; [exact Eq|]. rewrite Eq. unfold PwmStart_store_then_start.
  split.
  - intros w' E. unfold bind in E.
    destruct (ReadWriteReg_write PwmStartRegister_len t payload w)
      as [[[]|e] w1] eqn:Ew; [|discriminate].
    apply ReadWriteReg_write_ok in Ew. destruct Ew as (_ & _ & ->).
    unfold call in E. simpl in E. inversion E; subst; clear E. simpl.
    rewrite <- app_assoc. auto.
  - intros -> L. unfold bind.
    rewrite (ReadWriteReg_write_run PwmStartRegister_len payload w L).
    eexists. reflexivity.
Qed.

(** C6: a well-typed one-element write to the stop register caches the
    payload in both cases; with [enabled] False it does nothing else,
    with [enabled] True it then calls [stop()] exactly once. *)
Theorem PwmStopRegister_write_guarded
        (payload : list Z) (w : World HarpPwm) :
  List.length payload = 1%nat ->
  (enabled (periph w) = PyBool false ->
   PwmStopRegister_write (typ (self w)) payload w =
   (Ok tt, mkWorld (mkHarpRegister (typ (self w)) payload) (periph w)
                   (trace w ++ [EvStore payload])) /\
   count event_is_stop [EvStore payload] = 0%nat) /\
  (enabled (periph w) = PyBool true ->
   PwmStopRegister_write (typ (self w)) payload w =
   (Ok tt, mkWorld (mkHarpRegister (typ (self w)) payload)
                   (stop (periph w))
                   (trace w ++ [EvStore payload; EvStop])) /\
   count event_is_stop [EvStore payload; EvStop] = 1%nat).
Proof.
  intro L.
  pose proof (ReadWriteReg_write_run PwmStopRegister_len payload w L) as Ew.
  split; intro En; (split; [|reflexivity]);
    unfold PwmStopRegister_write; unfold bind at 1; unfold get_periph;
    rewrite En; simpl.
  - exact Ew.
  - unfold bind. rewrite Ew. unfold call. simpl.
    rewrite <- app_assoc. reflexivity.
Qed.

(** C9: the stop register tests [enabled is True]: unless the attribute
    is the boolean True the write is the bare store of the base class,
    so with a truthy value that is not a boolean (such as 1) a
    well-typed write caches the payload and [stop()] is not called. *)
Theorem PwmStopRegister_write_identity_test
        (t : HarpTypes) (payload : list Z) (w : World HarpPwm) :
  (enabled (periph w) <> PyBool true ->
   PwmStopRegister_write t payload w =
   ReadWriteReg_write PwmStopRegister_len t payload w) /\
  (truthy (enabled (periph w)) = true ->
   (forall b : bool, enabled (periph w) <> PyBool b) ->
   t = typ (self w) -> List.length payload = 1%nat ->
   PwmStopRegister_write t payload w =
   (Ok tt, mkWorld (mkHarpRegister (typ (self w)) payload) (periph w)
                   (trace w ++ [EvStore payload])) /\
   count event_is_stop [EvStore payload] = 0%nat).
Proof.
  assert (Hskip : enabled (periph w) <> PyBool true ->
                  PwmStopRegister_write t payload w =
                  ReadWriteReg_write PwmStopRegister_len t payload w).
  { intro Hne. unfold PwmStopRegister_write.
    unfold bind at 1. unfold get_periph.
    destruct (enabled (periph w)) as [|[|]|n]; simpl;
      try reflexivity.
    now elim Hne. }
  split; [exact Hskip|].
  intros _ Hnb -> L.
  rewrite (Hskip (Hnb true)).
  split; [|reflexivity].
  now apply ReadWriteReg_write_run.
Qed.
End PwmStartStop.

Section AnalogStreamProperties.
Context {G : Type} `{PicoObject G}.

(** C7: a well-typed write of [[v]] to the stream state register caches
    the payload and then enables the ADC event when [v > 0] and disables
    it otherwise. *)
Theorem AnalogStreamStateRegister_write_threshold (v : Z) (w : World G) :
  (0 < v ->
   AnalogStreamStateRegister_write (typ (self w)) [v] w =
   (Ok tt, mkWorld (mkHarpRegister (typ (self w)) [v])
                   (adc_event_enable (periph w))
                   (trace w ++ [EvStore [v]; EvEnable]))) /\
  (v <= 0 ->
   AnalogStreamStateRegister_write (typ (self w)) [v] w =
   (Ok tt, mkWorld (mkHarpRegister (typ (self w)) [v])
                   (adc_event_disable (periph w))
                   (trace w ++ [EvStore [v]; EvDisable]))).
Proof.
  split; intro Hv; unfold_classes; unfold_py;
    rewrite HarpTypes_eqb_refl; simpl.
  - apply Z.ltb_lt in Hv. rewrite Hv. simpl.
    rewrite <- app_assoc. reflexivity.
  - apply Z.ltb_ge in Hv. rewrite Hv. simpl.
    rewrite <- app_assoc. reflexivity.
Qed.
End AnalogStreamProperties.

Section LiveSampling.
Context {I A : Type} `{DigitalInputArray I} `{Adc A}.

(** C8, as the code has it: a read of a live-sampling register that
    returns gives the live sample as a one-element sequence and leaves
    the register's attributes, the cached value among them, as they
    were; the digital input read changes nothing at all, the ADC read
    only advances the converter. *)
Theorem live_read_leaves_cache (t : HarpTypes) (out : list Z) :
  (forall w w' : World I,
      HarpDigitalInputArrayRegister_read t w = (Ok out, w') ->
      out = [state (periph w)] /\ w' = w) /\
  (forall w w' : World A,
      AdcRegister_read t w = (Ok out, w') ->
      out = [fst (read_u16 (periph w))] /\
      self w' = self w /\
      periph w' = snd (read_u16 (periph w)) /\
      trace w' = trace w ++ [EvReadU16]).
Proof.
  split; intros w w' E.
  - unfold HarpDigitalInputArrayRegister_read in E. unfold_py.
    destruct (HarpTypes_eqb t (typ (self w))); [|discriminate].
    inversion E; subst; auto.
  - unfold AdcRegister_read, adc_read_u16 in E. unfold_py.
    destruct (HarpTypes_eqb t (typ (self w))); [|discriminate].
    destruct (read_u16 (periph w)) as [sample adc'].
    inversion E; subst; simpl; auto.
Qed.
End LiveSampling.

(** ** The properties at sample objects *)

Lemma PwmFreqRegister_write_validates_witness :
  let C := sim_pwm 10 0 in
  let w := pwm_world U16 10 (PyBool false) in
  (9 < @MinFrequency C /\
   @PwmFreqRegister_write C U16 [9] w =
   (Raise (ValueError "Invalid input value."), w)) /\
  (10 = @MinFrequency C /\ U16 = typ (self w) /\
   exists w' : World HarpPwm,
     @PwmFreqRegister_write C U16 [10] w = (Ok tt, w') /\
     value (self w') = [10] /\
     frequency (periph w') = 10 /\
     trace w' = trace w ++ [EvStore [10]; EvSetFrequency 10]).
Proof.
  intros C w. split.
  - split; [reflexivity|].
    apply (proj1 (@PwmFreqRegister_write_validates C 9 U16 w)).
    reflexivity.
  - split; [reflexivity|]. split; [reflexivity|].
    apply (proj2 (@PwmFreqRegister_write_validates C 10 U16 w));
      reflexivity.
Defined.

Lemma PwmDutycycleRegister_write_validates_witness :
  let C := sim_pwm 10 0 in
  let w := pwm_world U8 0 (PyBool false) in
  ((100 < 101 \/ 101 < @MinDutyCycle C) /\
   @PwmDutycycleRegister_write C U8 [101] w =
   (Raise (ValueError "Invalid input value."), w)) /\
  ((100 < -1 \/ -1 < @MinDutyCycle C) /\
   @PwmDutycycleRegister_write C U8 [-1] w =
   (Raise (ValueError "Invalid input value."), w)) /\
  (@MinDutyCycle C <= 0 /\ U8 = typ (self w) /\
   (exists w' : World HarpPwm,
       @PwmDutycycleRegister_write C U8 [0] w = (Ok tt, w') /\
       value (self w') = [0] /\
       dutycyle (periph w') = 0 /\
       trace w' = trace w ++ [EvStore [0]; EvSetDutycyle 0]) /\
   (exists w' : World HarpPwm,
       @PwmDutycycleRegister_write C U8 [100] w = (Ok tt, w') /\
       value (self w') = [100] /\
       dutycyle (periph w') = 100 /\
       trace w' = trace w ++ [EvStore [100]; EvSetDutycyle 100])).
Proof.
  intros C w.
  assert (Hmin : @MinDutyCycle C <= 0) by (simpl; lia).
  split; [|split].
  - assert (Hout : 100 < 101 \/ 101 < @MinDutyCycle C) by (left; lia).
    split; [exact Hout|].
    exact (proj1 (@PwmDutycycleRegister_write_validates C 101 U8 w) Hout).
  - assert (Hout : 100 < -1 \/ -1 < @MinDutyCycle C) by (right; simpl; lia).
    split; [exact Hout|].
    exact (proj1 (@PwmDutycycleRegister_write_validates C (-1) U8 w) Hout).
  - split; [exact Hmin|]. split; [reflexivity|]. split.
    + exact (proj2 (@PwmDutycycleRegister_write_validates C 0 U8 w)
                   Hmin eq_refl (or_introl eq_refl)).
    + exact (proj2 (@PwmDutycycleRegister_write_validates C 100 U8 w)
                   Hmin eq_refl (or_intror eq_refl)).
Defined.

Lemma PwmDutycycleRegister_new_reads_zero_witness :
  let C := sim_pwm 10 0 in
  let harpPWM := mkHarpPwm 10 50 (PyBool false) in
  let p' := mkHarpPwm 10 0 (PyBool false) in
  let r := mkHarpRegister U8 [0] in
  let tr' := [EvStore [0]; EvSetDutycyle 0] in
  @PwmDutycycleRegister_new C harpPWM [] = (Ok r, p', tr') /\
  value r = [0] /\
  HarpRegister_read U8 (mkWorld r p' tr') = (Ok [0], mkWorld r p' tr').
Proof.
  intros C harpPWM p' r tr'.
  split; [reflexivity|].
  destruct (@PwmDutycycleRegister_new_reads_zero C harpPWM p' [] tr' r eq_refl)
    as (_ & Hv & _ & Hr).
  split; [exact Hv | exact Hr].
Defined.

Lemma PwmDutycycleRegister_new_validates_witness :
  let harpPWM := mkHarpPwm 10 50 (PyBool false) in
  (0 < @MinDutyCycle (sim_pwm 10 5) /\
   @PwmDutycycleRegister_new (sim_pwm 10 5) harpPWM [] =
   (Raise (ValueError "Invalid input value."), harpPWM, [])) /\
  (@MinDutyCycle (sim_pwm 10 0) <= 0 /\
   exists r : HarpRegister,
     @PwmDutycycleRegister_new (sim_pwm 10 0) harpPWM [] =
     (Ok r, set_dutycyle 0 harpPWM, [] ++ [EvStore [0]; EvSetDutycyle 0])).
Proof.
  intro harpPWM. split.
  - assert (Hpos : 0 < @MinDutyCycle (sim_pwm 10 5)) by reflexivity.
    split; [exact Hpos|].
    exact (proj1 (@PwmDutycycleRegister_new_validates
                    (sim_pwm 10 5) harpPWM []) Hpos).
  - assert (Hmin : @MinDutyCycle (sim_pwm 10 0) <= 0) by (simpl; lia).
    split; [exact Hmin|].
    exact (proj1 (proj2 (@PwmDutycycleRegister_new_validates
                           (sim_pwm 10 0) harpPWM [])) Hmin).
Defined.

Lemma PwmStartRegister_write_unconditional_witness :
  let C := sim_pwm 10 0 in
  let w := pwm_world U8 0 (PyBool true) in
  let w' := mkWorld (mkHarpRegister U8 [1]) (mkHarpPwm 10 0 (PyBool true))
                    [EvStore [1]; EvStart] in
  @PwmStartRegister_write C U8 [1] w = (Ok tt, w') /\
  value (self w') = [1] /\
  periph w' = @start C (periph w) /\
  trace w' = trace w ++ [EvStore [1]; EvStart] /\
  count event_is_start [EvStore [1]; EvStart] = 1%nat.
Proof.
  intros C w w'.
  split; [reflexivity|].
  exact (proj1 (proj2 (@PwmStartRegister_write_unconditional C U8 [1] w))
               w' eq_refl).
Defined.

Lemma PwmStopRegister_write_guarded_witness :
  let C := sim_pwm 10 0 in
  let off := pwm_world U8 0 (PyBool false) in
  let on := pwm_world U8 0 (PyBool true) in
  (@PwmStopRegister_write C U8 [1] off =
   (Ok tt, mkWorld (mkHarpRegister U8 [1]) (mkHarpPwm 10 0 (PyBool false))
                   [EvStore [1]])) /\
  (@PwmStopRegister_write C U8 [1] on =
   (Ok tt, mkWorld (mkHarpRegister U8 [1]) (mkHarpPwm 10 0 (PyBool false))
                   [EvStore [1]; EvStop])).
Proof.
  intros C off on. split.
  - exact (proj1 (proj1 (@PwmStopRegister_write_guarded C [1] off eq_refl)
                        eq_refl)).
  - exact (proj1 (proj2 (@PwmStopRegister_write_guarded C [1] on eq_refl)
                        eq_refl)).
Defined.

Lemma PwmStopRegister_write_identity_test_witness :
  let C := sim_pwm 10 0 in
  let w := pwm_world U8 0 (PyInt 1) in
  truthy (enabled (periph w)) = true /\
  @PwmStopRegister_write C U8 [1] w =
  (Ok tt, mkWorld (mkHarpRegister U8 [1]) (mkHarpPwm 10 0 (PyInt 1))
                  [EvStore [1]]).
Proof.
  intros C w.
  split; [reflexivity|].
  assert (Hnb : forall b : bool, enabled (periph w) <> PyBool b)
    by (intro b; discriminate).
  exact (proj1 (proj2 (@PwmStopRegister_write_identity_test C U8 [1] w)
                      eq_refl Hnb eq_refl eq_refl)).
Defined.

Lemma AnalogStreamStateRegister_write_threshold_witness :
  (@AnalogStreamStateRegister_write bool sim_pico U8 [0] gate_world =
   (Ok tt, mkWorld (mkHarpRegister U8 [0]) false
                   [EvStore [0]; EvDisable])) /\
  (@AnalogStreamStateRegister_write bool sim_pico U8 [1] gate_world =
   (Ok tt, mkWorld (mkHarpRegister U8 [1]) true
                   [EvStore [1]; EvEnable])) /\
  (@AnalogStreamStateRegister_write bool sim_pico U8 [200] gate_world =
   (Ok tt, mkWorld (mkHarpRegister U8 [200]) true
                   [EvStore [200]; EvEnable])).
Proof.
  split; [|split].
  - apply (proj2 (@AnalogStreamStateRegister_write_threshold
                    bool sim_pico 0 gate_world)).
    apply Z.le_refl.
  - apply (proj1 (@AnalogStreamStateRegister_write_threshold
                    bool sim_pico 1 gate_world)).
    reflexivity.
  - apply (proj1 (@AnalogStreamStateRegister_write_threshold
                    bool sim_pico 200 gate_world)).
    reflexivity.
Defined.

Lemma live_read_leaves_cache_witness :
  let a' := mkWorld (mkHarpRegister U16 [0]) [9] [EvReadU16] in
  (@HarpDigitalInputArrayRegister_read Z sim_digital_input U8 din_world =
   (Ok [5], din_world)) /\
  (@AdcRegister_read (list Z) sim_adc U16 adc_world = (Ok [7], a') /\
   self a' = self adc_world).
Proof.
  intro a'.
  split; [reflexivity|].
  split; [reflexivity|].
  exact (proj1 (proj2 (proj2 (@live_read_leaves_cache
                                Z (list Z) sim_digital_input sim_adc
                                U16 [7]) adc_world a' eq_refl))).
Defined.

(** A read does not refresh the cache: the digital input register
    caching [[0]] over pins reading 5 returns [[5]] and still caches
    [[0]]; likewise the ADC register returns the sample 7 and still
    caches [[0]]. *)
Lemma live_read_does_not_refresh_cache :
  (exists w' : World Z,
      @HarpDigitalInputArrayRegister_read Z sim_digital_input U8 din_world =
      (Ok [5], w') /\
      value (self w') = [0] /\ value (self w') <> [5]) /\
  (exists w' : World (list Z),
      @AdcRegister_read (list Z) sim_adc U16 adc_world = (Ok [7], w') /\
      value (self w') = [0] /\ value (self w') <> [7]).
Proof.
  split; eexists; (split; [reflexivity|]); simpl;
    (split; [reflexivity | discriminate]).
Qed.

(** ** Further properties of the register classes *)

(** Case analysis on the next test of a method body in the goal. *)
Ltac branch_goal :=
  match goal with
  | |- context [if negb (HarpTypes_eqb ?a ?b) then _ else _] =>
      let E := fresh "Etyp" in destruct (HarpTypes_eqb a b) eqn:E
  | |- context [if ?c then _ else _] =>
      let E := fresh "Etest" in destruct c eqn:E
  end; simpl.

Section WriteOutcome.
Context {D G : Type} `{DigitalOutputArray D} `{PicoObject G} `{HarpPwmClass}.

(** A write either raises before anything was touched, or returns on a
    well-typed payload of one element, which is then the cached value. *)
Lemma write_outcome (k : variant) (t : HarpTypes) (payload : list Z)
      (w : World (periph_of k)) :
  (exists e : exn, write k t payload w = (Raise e, w)) \/
  (exists w' : World (periph_of k),
      write k t payload w = (Ok tt, w') /\
      t = typ (self w) /\ List.length payload = 1%nat /\
      self w' = mkHarpRegister (typ (self w)) payload).
Proof.
  destruct k; unfold_classes; unfold_py;
    destruct payload as [|x [|y rest]]; simpl;
    repeat branch_goal;
    try (left; eexists; reflexivity);
    right; eexists; (split; [reflexivity|]);
    (split; [now apply HarpTypes_eqb_eq|]);
    split; reflexivity.
Qed.



(** A series of write requests keeps the type tag and the single cached
    element of the register it is served on. *)
Lemma serve_shape (k : variant) (reqs : list (HarpTypes * list Z))
      (w : World (periph_of k)) :
  List.length (value (self w)) = 1%nat ->
  typ (self (serve (write k) reqs w)) = typ (self w) /\
  List.length (value (self (serve (write k) reqs w))) = 1%nat.
Proof.
  revert w. induction reqs as [|[t payload] rest IH]; intros w Hlen.
  - simpl. auto.
  - simpl.
    destruct (write_outcome k t payload w)
      as [[e E] | (w1 & E & _ & Hone & Hself)]; rewrite E; simpl.
    + now apply IH.
    + assert (Hlen1 : List.length (value (self w1)) = 1%nat)
        by (rewrite Hself; exact Hone).
      destruct (IH w1 Hlen1) as [Ht Hl].
      split; [|exact Hl].
      rewrite Ht, Hself. reflexivity.
Qed.

(** X3: a register that its constructor returned has one cached element
    and the type tag of its class ([U16] for the frequency register,
    [U8] for the others), and keeps both through any series of write
    requests, failed ones included. *)
Theorem constructed_register_shape
        (k : variant) (reqs : list (HarpTypes * list Z))
        (w w0 : World (periph_of k)) :
  init k w = (Ok tt, w0) ->
  typ (self (serve (write k) reqs w0)) =
  match k with PwmFreqRegister => U16 | _ => U8 end /\
  List.length (value (self (serve (write k) reqs w0))) = 1%nat.
Proof.
  intro E.
  assert (Hshape : typ (self w0) =
                   match k with PwmFreqRegister => U16 | _ => U8 end /\
                   List.length (value (self w0)) = 1%nat).
  { destruct k;
      cbv beta iota delta
          [init periph_of HarpDigitalOutputArrayRegister_init
           AnalogStreamStateRegister_init PwmFreqRegister_init
           PwmDutycycleRegister_init PwmStartRegister_init
           PwmStopRegister_init ReadWriteReg_init] in E;
      unfold_classes; unfold_py; simpl in E;
      repeat branch; inversion E; subst; simpl; auto. }
  destruct Hshape as [Ht Hl].
  destruct (serve_shape k reqs w0 Hl) as [Ht' Hl'].
  split; [now rewrite Ht'|exact Hl'].
Qed.
End WriteOutcome.

Section WriteExceptions.
Context {D G : Type} `{DigitalOutputArray D} `{PicoObject G} `{HarpPwmClass}.

End WriteExceptions.

Section ValidationFirst.
Context `{HarpPwmClass}.

(** X5: in the two PWM configuration classes validation runs before the
    checks of the base write: an out-of-range first element raises
    ValueError whatever the requested type and however many elements
    follow, and the empty payload raises IndexError whatever the type;
    nothing is changed in either case. *)
Theorem pwm_validation_precedes_base_checks
        (t : HarpTypes) (w : World HarpPwm) :
  PwmFreqRegister_write t [] w = (Raise IndexError, w) /\
  PwmDutycycleRegister_write t [] w = (Raise IndexError, w) /\
  (forall (v : Z) (rest : list Z),
      v < MinFrequency ->
      PwmFreqRegister_write t (v :: rest) w =
      (Raise (ValueError "Invalid input value."), w)) /\
  (forall (v : Z) (rest : list Z),
      100 < v \/ v < MinDutyCycle ->
      PwmDutycycleRegister_write t (v :: rest) w =
      (Raise (ValueError "Invalid input value."), w)).
Proof.
  split; [reflexivity|]. split; [reflexivity|]. split.
  - intros v rest Hlow. unfold_classes; unfold_py.
    apply Z.ltb_lt in Hlow. rewrite Hlow. reflexivity.
  - intros v rest Hout. unfold_classes; unfold_py.
    assert (Hbad : (100 <? v) || (v <? MinDutyCycle) = true).
    { apply orb_true_iff.
      destruct Hout as [Hhi | Hlo]; [left | right]; now apply Z.ltb_lt. }
    rewrite Hbad. reflexivity.
Qed.
End ValidationFirst.

Lemma count_app (f : event -> bool) (l l' : list event) :
  count f (l ++ l') = (count f l + count f l')%nat.
Proof. unfold count. rewrite filter_app. apply length_app. Qed.

Section PwmConfiguration.
Context `{HarpPwmClass}.


(** One duty-cycle write, likewise. *)
Lemma PwmDutycycleRegister_write_step
      (t : HarpTypes) (payload : list Z) (w : World HarpPwm) :
  (exists e : exn, PwmDutycycleRegister_write t payload w = (Raise e, w)) \/
  (exists v : Z,
      payload = [v] /\ MinDutyCycle <= v <= 100 /\
      PwmDutycycleRegister_write t payload w =
      (Ok tt, mkWorld (mkHarpRegister (typ (self w)) [v])
                      (set_dutycyle v (periph w))
                      (trace w ++ [EvStore [v]; EvSetDutycyle v]))).
Proof.
  unfold_classes; unfold_py.
  destruct payload as [|x [|y rest]]; simpl; repeat branch_goal;
    try (left; eexists; reflexivity).
  right. exists x. split; [reflexivity|].
  apply orb_false_iff in Etest. destruct Etest as [Hhi Hlo].
  apply Z.ltb_ge in Hhi. apply Z.ltb_ge in Hlo.
  split; [lia|].
  rewrite <- app_assoc. reflexivity.
Qed.


Lemma PwmDutycycleRegister_serve_keeps
      (p0 : HarpPwm) (tr0 : list event) (f : Z)
      (reqs : list (HarpTypes * list Z)) (w : World HarpPwm) :
  PwmDutycycle_consistent w /\ frequency (periph w) = f /\
  same_run_state tr0 p0 w ->
  PwmDutycycle_consistent (serve PwmDutycycleRegister_write reqs w) /\
  frequency (periph (serve PwmDutycycleRegister_write reqs w)) = f /\
  same_run_state tr0 p0 (serve PwmDutycycleRegister_write reqs w).
Proof.
  revert w. induction reqs as [|[t payload] rest IH]; intros w Hinv.
  - exact Hinv.
  - simpl.
    destruct (PwmDutycycleRegister_write_step t payload w)
      as [[e E] | (v & _ & Hv & E)]; rewrite E; simpl.
    + now apply IH.
    + apply IH. clear IH E.
      destruct Hinv as (_ & Hf & He & Hs1 & Hs2).
      split; [exists v; simpl; auto|].
      split; [exact Hf|].
      unfold same_run_state. simpl. rewrite !count_app. simpl.
      rewrite Hs1, Hs2. repeat split; auto.
Qed.


(** X7: when the constructor of the duty-cycle register returns, and
    from then on through any series of write requests, the cached value
    is a single element between [MinDutyCycle] and 100 and equals the
    [dutycyle] attribute of the peripheral: the write of 0 in the
    constructor is what makes the two agree from the start.  None of
    this touches the frequency, [enabled], or calls [start()] or
    [stop()]. *)
Theorem PwmDutycycleRegister_serve_invariant
        (reqs : list (HarpTypes * list Z)) (w w0 : World HarpPwm) :
  PwmDutycycleRegister_init w = (Ok tt, w0) ->
  PwmDutycycle_consistent (serve PwmDutycycleRegister_write reqs w0) /\
  frequency (periph (serve PwmDutycycleRegister_write reqs w0)) =
  frequency (periph w) /\
  same_run_state (trace w) (periph w)
                 (serve PwmDutycycleRegister_write reqs w0).
Proof.
  intro E. unfold PwmDutycycleRegister_init, ReadWriteReg_init in E.
  destruct (PwmDutycycleRegister_write_step
              (typ (self (mkWorld (mkHarpRegister U8 [MinDutyCycle])
                                  (periph w) (trace w))))
              [0]
              (mkWorld (mkHarpRegister U8 [MinDutyCycle])
                       (periph w) (trace w)))
    as [[e E'] | (v & Hp & Hv & E')]; rewrite E' in E; [discriminate|].
  inversion Hp; subst v. inversion E; subst; clear E E'.
  apply PwmDutycycleRegister_serve_keeps. simpl.
  split; [exists 0; simpl; auto|].
  split; [reflexivity|].
  unfold same_run_state. simpl. rewrite !count_app. simpl.
  repeat split; auto.
Qed.
End PwmConfiguration.

Lemma HarpTypes_eqb_neq (a b : HarpTypes) :
  a <> b -> HarpTypes_eqb a b = false.
Proof.
  intro Hne. destruct (HarpTypes_eqb a b) eqn:E; [|reflexivity].
  apply HarpTypes_eqb_eq in E. contradiction.
Qed.

Section DigitalOutputProperties.
Context {D : Type} `{DigitalOutputArray D}.

(** X8: a write to a Set, Clear or Toggle register that returns had a
    payload of one mask, cached it, and then called the one operation of
    its class on the array, once and with that mask: [set_state],
    [clear_state] or [toggle_state]. *)
Theorem digital_output_write_action
        (t : HarpTypes) (mask : list Z) (w w' : World D) :
  (Set_HarpDigitalOutputArrayRegister_write t mask w = (Ok tt, w') ->
   exists m : Z,
     mask = [m] /\ value (self w') = [m] /\
     periph w' = set_state m (periph w) /\
     trace w' = trace w ++ [EvStore [m]; EvSetState m]) /\
  (Clear_HarpDigitalOutputArrayRegister_write t mask w = (Ok tt, w') ->
   exists m : Z,
     mask = [m] /\ value (self w') = [m] /\
     periph w' = clear_state (Some m) (periph w) /\
     trace w' = trace w ++ [EvStore [m]; EvClearState (Some m)]) /\
  (Toggle_HarpDigitalOutputArrayRegister_write t mask w = (Ok tt, w') ->
   exists m : Z,
     mask = [m] /\ value (self w') = [m] /\
     periph w' = toggle_state m (periph w) /\
     trace w' = trace w ++ [EvStore [m]; EvToggleState m]).
Proof.
  repeat split; intro E; unfold_classes; unfold_py;
    destruct mask as [|x [|y rest]]; simpl in *;
    repeat branch; inversion E; subst; clear E;
    exists x; simpl; rewrite <- app_assoc; auto.
Qed.
End DigitalOutputProperties.

Section LiveReads.
Context {I A : Type} `{DigitalInputArray I} `{Adc A}.

(** X9: a write to the digital input register, which inherits the base
    write, is cached but never shows in a read: the read that follows
    returns the state of the pins, whatever was written. *)
Theorem digital_input_write_not_observable
        (t : HarpTypes) (payload : list Z) (w w' : World I) :
  ReadWriteReg_write HarpDigitalInputArrayRegister_len t payload w =
  (Ok tt, w') ->
  value (self w') = payload /\
  HarpDigitalInputArrayRegister_read t w' = (Ok [state (periph w)], w').
Proof.
  intro E. apply ReadWriteReg_write_ok in E.
  destruct E as (-> & _ & ->). simpl.
  split; [reflexivity|].
  unfold HarpDigitalInputArrayRegister_read. unfold_py. simpl.
  rewrite HarpTypes_eqb_refl. reflexivity.
Qed.

(** X10: a read of a live-sampling register with a type other than the
    register's raises TypeMismatch before the peripheral is consulted:
    nothing changes, and in particular the converter is not sampled. *)
Theorem live_read_type_mismatch (t : HarpTypes) :
  (forall w : World I,
      t <> typ (self w) ->
      HarpDigitalInputArrayRegister_read t w = (Raise TypeMismatch, w)) /\
  (forall w : World A,
      t <> typ (self w) ->
      AdcRegister_read t w = (Raise TypeMismatch, w)).
Proof.
  split; intros w Hne; apply HarpTypes_eqb_neq in Hne.
  - unfold HarpDigitalInputArrayRegister_read. unfold_py.
    rewrite Hne. reflexivity.
  - unfold AdcRegister_read. unfold_py.
    rewrite Hne. reflexivity.
Qed.

(** X11: two ADC reads in a row sample the converter twice: the second
    returns what the converter delivers after the first, nothing is kept
    from one read to the next, and the cached value is the same before
    and after. *)
Theorem AdcRegister_read_twice (w : World A) :
  let first := read_u16 (periph w) in
  let second := read_u16 (snd first) in
  (a <- AdcRegister_read (typ (self w)) ;;
   b <- AdcRegister_read (typ (self w)) ;;
   ret (a, b)) w =
  (Ok ([fst first], [fst second]),
   mkWorld (self w) (snd second) (trace w ++ [EvReadU16; EvReadU16])).
Proof.
  unfold AdcRegister_read, adc_read_u16. unfold_py.
  rewrite HarpTypes_eqb_refl.
  destruct (read_u16 (periph w)) as [s1 a1] eqn:E1. simpl.
  rewrite HarpTypes_eqb_refl. simpl.
  destruct (read_u16 a1) as [s2 a2] eqn:E2. simpl.
  rewrite <- app_assoc. reflexivity.
Qed.
End LiveReads.

Section PwmComposition.
Context `{HarpPwmClass}.

(** X12: two writes in a row to the stop register of a running PWM whose
    [stop()] leaves [enabled] at False call [stop()] once: the second
    write only caches its payload. *)
Theorem PwmStopRegister_write_twice
        (p1 p2 : list Z) (w : World HarpPwm) :
  List.length p1 = 1%nat -> List.length p2 = 1%nat ->
  enabled (periph w) = PyBool true ->
  enabled (stop (periph w)) = PyBool false ->
  serve PwmStopRegister_write
        [(typ (self w), p1); (typ (self w), p2)] w =
  mkWorld (mkHarpRegister (typ (self w)) p2) (stop (periph w))
          (trace w ++ [EvStore p1; EvStop; EvStore p2]).
Proof.
  intros L1 L2 Hon Hoff. simpl.
  unfold PwmStopRegister_write at 2. unfold bind at 1. unfold get_periph.
  rewrite Hon. simpl. unfold bind.
  rewrite (ReadWriteReg_write_run PwmStopRegister_len p1 w L1).
  unfold call. simpl.
  unfold PwmStopRegister_write. unfold bind. unfold get_periph. simpl.
  rewrite Hoff. simpl.
  match goal with
  | |- context [ReadWriteReg_write _ _ _ ?w1] =>
      pose proof (ReadWriteReg_write_run PwmStopRegister_len p2 w1 L2) as E2
  end.
  simpl in E2. rewrite E2. simpl.
  rewrite <- !app_assoc. reflexivity.
Qed.

(** X13: the frequency and start registers share the PWM object, so a
    frequency that was accepted is in place when a later write to the
    start register calls [start()], while after a rejected frequency
    [start()] runs on the peripheral as it was. *)
Theorem frequency_applies_at_start
        (v : Z) (payload : list Z) (start_reg : HarpRegister)
        (w : World HarpPwm) :
  List.length payload = 1%nat ->
  let w1 := snd (PwmFreqRegister_write (typ (self w)) [v] w) in
  let done := PwmStartRegister_write (typ start_reg) payload
                                     (rebind start_reg w1) in
  (MinFrequency <= v ->
   done =
   (Ok tt, mkWorld (mkHarpRegister (typ start_reg) payload)
                   (start (set_frequency v (periph w)))
                   (trace w ++ [EvStore [v]; EvSetFrequency v;
                                EvStore payload; EvStart]))) /\
  (v < MinFrequency ->
   done =
   (Ok tt, mkWorld (mkHarpRegister (typ start_reg) payload)
                   (start (periph w))
                   (trace w ++ [EvStore payload; EvStart]))).
Proof.
  intros L w1 done.
  assert (Hstart : forall w2 : World HarpPwm,
             PwmStartRegister_write (typ start_reg) payload
                                    (rebind start_reg w2) =
             (Ok tt, mkWorld (mkHarpRegister (typ start_reg) payload)
                             (start (periph w2))
                             (trace w2 ++ [EvStore payload; EvStart]))).
  { intro w2. unfold PwmStartRegister_write.
    unfold bind at 1. unfold get_periph.
    pose proof (ReadWriteReg_write_run PwmStartRegister_len payload
                                       (rebind start_reg w2) L) as E.
    simpl in E.
    destruct (is_False (enabled (periph (rebind start_reg w2))));
      unfold bind; rewrite E; unfold call; simpl;
      rewrite <- app_assoc; reflexivity. }
  subst done. rewrite Hstart. subst w1.
  split; intro Hv.
  - unfold_classes; unfold_py.
    apply Z.ltb_ge in Hv. rewrite Hv, HarpTypes_eqb_refl. simpl.
    rewrite <- !app_assoc. reflexivity.
  - unfold_classes; unfold_py.
    apply Z.ltb_lt in Hv. rewrite Hv. reflexivity.
Qed.
End PwmComposition.

(** ** The further properties at sample objects *)



Lemma constructed_register_shape_witness :
  let C := sim_pwm 10 0 in
  let w := pwm_world S8 7 (PyBool false) in
  let w0 := mkWorld (mkHarpRegister U8 [0]) (mkHarpPwm 10 0 (PyBool false))
                    [EvStore [0]; EvSetDutycyle 0] in
  let reqs := [(U8, [50]); (U16, [60]); (U8, [101]); (U8, [])] in
  @init Z bool sim_digital_output C PwmDutycycleRegister w =
  (Ok tt, w0) /\
  typ (self (serve (@write Z bool sim_digital_output sim_pico C
                           PwmDutycycleRegister) reqs w0)) = U8 /\
  List.length
    (value (self (serve (@write Z bool sim_digital_output sim_pico C
                                PwmDutycycleRegister) reqs w0))) = 1%nat.
Proof.
  intros C w w0 reqs.
  split; [reflexivity|].
  exact (@constructed_register_shape
           Z bool sim_digital_output sim_pico C
           PwmDutycycleRegister reqs w w0 eq_refl).
Defined.


Lemma pwm_validation_precedes_base_checks_witness :
  let C := sim_pwm 10 0 in
  let w := pwm_world U16 10 (PyBool false) in
  @PwmFreqRegister_write C S8 [9; 9; 9] w =
  (Raise (ValueError "Invalid input value."), w) /\
  @PwmDutycycleRegister_write C S8 [101; 0] w =
  (Raise (ValueError "Invalid input value."), w).
Proof.
  intros C w.
  destruct (@pwm_validation_precedes_base_checks C S8 w)
    as (_ & _ & Hfreq & Hduty).
  split.
  - apply Hfreq. reflexivity.
  - apply Hduty. left. reflexivity.
Defined.


Lemma PwmDutycycleRegister_serve_invariant_witness :
  let C := sim_pwm 10 0 in
  let w := mkWorld (mkHarpRegister S8 []) (mkHarpPwm 3 40 (PyBool true)) [] in
  let w0 := mkWorld (mkHarpRegister U8 [0])
                    (mkHarpPwm 3 0 (PyBool true))
                    [EvStore [0]; EvSetDutycyle 0] in
  let reqs := [(U8, [50]); (U8, [101]); (U16, [60]); (U8, [-1])] in
  @PwmDutycycleRegister_init C w = (Ok tt, w0) /\
  @PwmDutycycle_consistent C
    (serve (@PwmDutycycleRegister_write C) reqs w0) /\
  frequency (periph (serve (@PwmDutycycleRegister_write C) reqs w0)) =
  frequency (periph w) /\
  same_run_state (trace w) (periph w)
                 (serve (@PwmDutycycleRegister_write C) reqs w0).
Proof.
  intros C w w0 reqs.
  split; [reflexivity|].
  exact (@PwmDutycycleRegister_serve_invariant C reqs w w0 eq_refl).
Defined.

Lemma digital_output_write_action_witness :
  (exists m : Z,
      [5] = [m] /\
      periph (mkWorld (mkHarpRegister U8 [5]) 15
                      [EvStore [5]; EvSetState 5]) =
      @set_state Z sim_digital_output m (periph dout_world)) /\
  (exists m : Z,
      [2] = [m] /\
      periph (mkWorld (mkHarpRegister U8 [2]) 8
                      [EvStore [2]; EvClearState (Some 2)]) =
      @clear_state Z sim_digital_output (Some m) (periph dout_world)) /\
  (exists m : Z,
      [6] = [m] /\
      periph (mkWorld (mkHarpRegister U8 [6]) 12
                      [EvStore [6]; EvToggleState 6]) =
      @toggle_state Z sim_digital_output m (periph dout_world)).
Proof.
  split; [|split].
  - destruct (proj1 (@digital_output_write_action
                       Z sim_digital_output U8 [5] dout_world
                       (mkWorld (mkHarpRegister U8 [5]) 15
                                [EvStore [5]; EvSetState 5])) eq_refl)
      as (m & Hm & _ & Hp & _).
    exists m. split; assumption.
  - destruct (proj1 (proj2 (@digital_output_write_action
                       Z sim_digital_output U8 [2] dout_world
                       (mkWorld (mkHarpRegister U8 [2]) 8
                                [EvStore [2]; EvClearState (Some 2)])))
                    eq_refl)
      as (m & Hm & _ & Hp & _).
    exists m. split; assumption.
  - destruct (proj2 (proj2 (@digital_output_write_action
                       Z sim_digital_output U8 [6] dout_world
                       (mkWorld (mkHarpRegister U8 [6]) 12
                                [EvStore [6]; EvToggleState 6])))
                    eq_refl)
      as (m & Hm & _ & Hp & _).
    exists m. split; assumption.
Defined.

Lemma digital_input_write_not_observable_witness :
  let w' := mkWorld (mkHarpRegister U8 [9]) 5 [EvStore [9]] in
  @ReadWriteReg_write Z HarpDigitalInputArrayRegister_len U8 [9] din_world =
  (Ok tt, w') /\
  value (self w') = [9] /\
  @HarpDigitalInputArrayRegister_read Z sim_digital_input U8 w' =
  (Ok [5], w').
Proof.
  intro w'.
  split; [reflexivity|].
  exact (@digital_input_write_not_observable
           Z sim_digital_input U8 [9] din_world w' eq_refl).
Defined.

Lemma live_read_type_mismatch_witness :
  @HarpDigitalInputArrayRegister_read Z sim_digital_input U16 din_world =
  (Raise TypeMismatch, din_world) /\
  @AdcRegister_read (list Z) sim_adc U8 adc_world =
  (Raise TypeMismatch, adc_world).
Proof.
  destruct (@live_read_type_mismatch
              Z (list Z) sim_digital_input sim_adc U16) as [Hin _].
  destruct (@live_read_type_mismatch
              Z (list Z) sim_digital_input sim_adc U8) as [_ Hadc].
  split.
  - apply Hin. discriminate.
  - apply Hadc. discriminate.
Defined.

Lemma PwmStopRegister_write_twice_witness :
  let C := sim_pwm 10 0 in
  let w := pwm_world U8 0 (PyBool true) in
  serve (@PwmStopRegister_write C) [(U8, [1]); (U8, [2])] w =
  mkWorld (mkHarpRegister U8 [2]) (mkHarpPwm 10 0 (PyBool false))
          [EvStore [1]; EvStop; EvStore [2]].
Proof.
  intros C w.
  exact (@PwmStopRegister_write_twice C [1] [2] w
                                      eq_refl eq_refl eq_refl eq_refl).
Defined.

Lemma frequency_applies_at_start_witness :
  let C := sim_pwm 10 0 in
  let w := pwm_world U16 10 (PyBool false) in
  let start_reg := mkHarpRegister U8 [0] in
  @PwmStartRegister_write C U8 [1]
    (rebind start_reg (snd (@PwmFreqRegister_write C U16 [440] w))) =
  (Ok tt, mkWorld (mkHarpRegister U8 [1]) (mkHarpPwm 440 0 (PyBool true))
                  [EvStore [440]; EvSetFrequency 440;
                   EvStore [1]; EvStart]) /\
  @PwmStartRegister_write C U8 [1]
    (rebind start_reg (snd (@PwmFreqRegister_write C U16 [9] w))) =
  (Ok tt, mkWorld (mkHarpRegister U8 [1]) (mkHarpPwm 10 0 (PyBool true))
                  [EvStore [1]; EvStart]).
Proof.
  intros C w start_reg. split.
  - apply (proj1 (@frequency_applies_at_start C 440 [1] start_reg w
                                              eq_refl)).
    simpl. lia.
  - apply (proj2 (@frequency_applies_at_start C 9 [1] start_reg w
                                              eq_refl)).
    reflexivity.
Defined.
